(** * synth.py: the synthesis script of pprof-nodejs

    The repository's only source file is a seven-statement Python module
    that drives the external [synthtool] library:

<<
    import synthtool as s
    import synthtool.gcp as gcp
    import logging

    common_templates = gcp.CommonTemplates()
    logging.basicConfig(level=logging.DEBUG)
    templates = common_templates.node_library()
    s.copy(templates / ".kokoro")
>>

    The module body is embedded twice: as a list of statements
    ([synth_py], the text of the file) and as a program in a small
    monad of library operations ([synth], written line by line after the
    source).  [synth_py_denotes_synth] shows that the two agree.  The
    external library is a parameter: an arbitrary state machine answering
    each operation with a value or an exception, and each attribute
    lookup with the member or an exception. *)

From Stdlib Require Import ZArith List String Ascii Bool Lia.
From stdpp Require Import base option list.
Import ListNotations.
Local Open Scope string_scope.
Set Warnings "-register-all".

(** ** pathlib: pure POSIX paths *)

Module Pathlib.

Record Path := mkPath { absolute : bool; parts : list string }.

(** [split_slash s cur] cuts [s] at every slash; [cur] is the segment
    being read. *)
Fixpoint split_slash (s : string) (cur : string) : list string :=
  match s with
  | EmptyString => [cur]
  | String c s' =>
      if Ascii.eqb c "/"%char then cur :: split_slash s' ""
      else split_slash s' (String.append cur (String c ""))
  end.

(** Empty segments and single dots are dropped when a path is parsed. *)
Definition segments (s : string) : list string :=
  List.filter (fun seg => negb (String.eqb seg "") && negb (String.eqb seg "."))
              (split_slash s "").

Definition starts_with_slash (s : string) : bool :=
  match s with
  | String c _ => Ascii.eqb c "/"%char
  | EmptyString => false
  end.

(** [p / s]: an absolute right operand replaces the left one, a relative
    one is appended to it. *)
Definition truediv (p : Path) (s : string) : Path :=
  if starts_with_slash s then mkPath true (segments s)
  else mkPath (absolute p) (parts p ++ segments s).

(** [Path.name]: the final path segment, empty for a path without
    segments. *)
Definition name (p : Path) : string := List.last (parts p) "".

(** [under d p]: the relative path [p] lies inside the directory [d] of
    the directory it is relative to: it starts with [d] and never steps
    up again. *)
Definition under (d : string) (p : Path) : bool :=
  negb (absolute p) &&
  match parts p with
  | x :: rest =>
      String.eqb x d && forallb (fun seg => negb (String.eqb seg "..")) rest
  | [] => false
  end.

End Pathlib.
Export Pathlib.

(** ** logging: the numeric levels of Python's logging module *)

Module Logging.

(** The levels a message can be logged at. *)
Inductive level := CRITICAL | ERROR | WARNING | INFO | DEBUG.

Definition level_no (l : level) : Z :=
  match l with
  | CRITICAL => 50
  | ERROR => 40
  | WARNING => 30
  | INFO => 20
  | DEBUG => 10
  end.

Definition all_levels : list level := [CRITICAL; ERROR; WARNING; INFO; DEBUG].

(** [Logger.isEnabledFor]: a message of level [msg] is handled when the
    configured level is at most [msg]. *)
Definition isEnabledFor (configured msg : Z) : bool := (configured <=? msg)%Z.

(** The root logger: its level and the number of its handlers. *)
Record logger := mkLogger { log_level : Z; log_handlers : nat }.

(** The root logger as the module creates it: level WARNING, no handler. *)
Definition initial_root : logger := mkLogger 30 0.

(** [logging.basicConfig(level=n)]: when the root logger has no handler
    it gets one and its level becomes [n]; when it has one already the
    call does nothing. *)
Definition basicConfig (n : Z) (root : logger) : logger :=
  match log_handlers root with
  | O => mkLogger n 1
  | S _ => root
  end.

End Logging.

(** ** Values, exceptions and library operations *)

Inductive value :=
| VNone
| VInt (n : Z)
| VStr (s : string)
| VPath (p : Path)
| VModule (name : string)
| VObject (id : nat)
| VAttr (owner : value) (attr : string).

(** Exceptions: [SystemExit], which carries the exit code it asks for,
    and the others, by class and message. *)
Inductive exn :=
| PyExn (cls msg : string)
| SystemExit (code : value).

Definition NameError (id : string) : exn := PyExn "NameError" id.
Definition TypeError (msg : string) : exn := PyExn "TypeError" msg.
Definition AttributeError (attr : string) : exn := PyExn "AttributeError" attr.

(** What the script asks of its collaborators: running a module on
    import, calling one of their functions, classes or methods, and
    looking up an attribute of one of their modules or objects. *)
Inductive call :=
| Import (module : string)
| Invoke (callee : value) (args : list value) (kwargs : list (string * value))
| GetAttr (owner : value) (attr : string).

(** Programs: trees of library operations that end in a value or in an
    exception raised by the interpreter. *)
Inductive Prog (R : Type) :=
| Ret (r : R)
| Raise (e : exn)
| Do (c : call) (k : value -> Prog R).
Arguments Ret {R} r.
Arguments Raise {R} e.
Arguments Do {R} c k.

Fixpoint bind {A B : Type} (m : Prog A) (f : A -> Prog B) : Prog B :=
  match m with
  | Ret a => f a
  | Raise e => Raise e
  | Do c k => Do c (fun v => bind (k v) f)
  end.

#[global] Instance Prog_ret : MRet Prog := @Ret.
#[global] Instance Prog_bind : MBind Prog := fun A B f m => bind m f.

(** ** The interpreter's part of the operations *)

(** The constants of the logging module. *)
Definition logging_constant (attr : string) : option Z :=
  if String.eqb attr "CRITICAL" then Some 50%Z
  else if String.eqb attr "ERROR" then Some 40%Z
  else if String.eqb attr "WARNING" then Some 30%Z
  else if String.eqb attr "INFO" then Some 20%Z
  else if String.eqb attr "DEBUG" then Some 10%Z
  else if String.eqb attr "NOTSET" then Some 0%Z
  else None.

(** Modules, objects and their members belong to the libraries, which
    resolve their attributes; [None], integers, strings and paths have
    none of the attributes this module looks up. *)
Definition library_owned (v : value) : bool :=
  match v with
  | VModule _ | VObject _ | VAttr _ _ => true
  | VNone | VInt _ | VStr _ | VPath _ => false
  end.

Definition is_module (m : string) (v : value) : bool :=
  match v with
  | VModule m' => String.eqb m' m
  | _ => false
  end.

(** Asking the library for the member [attr] of [owner]. *)
Definition lookup (owner : value) (attr : string) : Prog value :=
  Do (GetAttr owner attr) (fun _ => Ret (VAttr owner attr)).

(** [v.attr]: AttributeError on a built-in value; a constant of the
    logging module; or else the member [attr] of [v], if the library has
    it. *)
Definition getattr (v : value) (attr : string) : Prog value :=
  if library_owned v then
    match logging_constant attr with
    | Some n => if is_module "logging" v then Ret (VInt n) else lookup v attr
    | None => lookup v attr
    end
  else Raise (AttributeError attr).

Definition callable (v : value) : bool :=
  match v with
  | VAttr _ _ | VObject _ => true
  | _ => false
  end.

(** Calling [f] with positional and keyword arguments: one library
    operation. *)
Definition call_value (f : value) (args : list value)
    (kwargs : list (string * value)) : Prog value :=
  if callable f then Do (Invoke f args kwargs) Ret
  else Raise (TypeError "object is not callable").

(** [l / r]: joining a path with a string; other operands have no
    division (library objects are taken to define no operators). *)
Definition truediv_value (l r : value) : Prog value :=
  match l, r with
  | VPath p, VStr s => Ret (VPath (truediv p s))
  | _, _ => Raise (TypeError "unsupported operand type(s) for /")
  end.

(** [import m]: the library runs the module; the interpreter then has the
    module object. *)
Definition import_module (m : string) : Prog value :=
  Do (Import m) (fun _ => Ret (VModule m)).

(** ** The module body as statements *)

Inductive expr :=
| EName (id : string)
| EAttribute (e : expr) (attr : string)
| EStr (s : string)
| ECall (func : expr) (args : list expr) (keywords : list (string * expr))
| EDiv (left right : expr).

Inductive stmt :=
| SImport (module : string) (asname : option string)
| SAssign (target : string) (rhs : expr)
| SExpr (e : expr)
| SIf (test : expr) (body orelse : list stmt)
| SWhile (test : expr) (body : list stmt)
| SFor (target : string) (iter : expr) (body : list stmt)
| STry (body : list stmt) (handlers : list (string * list stmt)).

(** synth.py, statement by statement. *)
Definition synth_py : list stmt :=
  [ SImport "synthtool" (Some "s");
    SImport "synthtool.gcp" (Some "gcp");
    SImport "logging" None;
    SAssign "common_templates"
      (ECall (EAttribute (EName "gcp") "CommonTemplates") [] []);
    SExpr
      (ECall (EAttribute (EName "logging") "basicConfig") []
         [("level", EAttribute (EName "logging") "DEBUG")]);
    SAssign "templates"
      (ECall (EAttribute (EName "common_templates") "node_library") [] []);
    SExpr
      (ECall (EAttribute (EName "s") "copy")
         [EDiv (EName "templates") (EStr ".kokoro")] []) ].

Definition is_import (s : stmt) : bool :=
  match s with
  | SImport _ _ => true
  | _ => false
  end.

(** Statements without a body of their own: no branch, loop or handler. *)
Definition straight_line (s : stmt) : bool :=
  match s with
  | SImport _ _ | SAssign _ _ | SExpr _ => true
  | SIf _ _ _ | SWhile _ _ | SFor _ _ _ | STry _ _ => false
  end.

(** The package a dotted module name starts with. *)
Fixpoint top_package (m : string) : string :=
  match m with
  | EmptyString => ""
  | String c m' => if Ascii.eqb c "."%char then "" else String c (top_package m')
  end.

(** A module's namespace: a dictionary from names to values, kept in
    insertion order as Python dictionaries are. *)
Definition namespace : Type := list (string * value).

Fixpoint ns_lookup (ns : namespace) (x : string) : option value :=
  match ns with
  | [] => None
  | (y, v) :: ns' => if String.eqb y x then Some v else ns_lookup ns' x
  end.

(** Binding [x]: a name already bound keeps its place, a new one goes to
    the end. *)
Fixpoint ns_bind (x : string) (v : value) (ns : namespace) : namespace :=
  match ns with
  | [] => [(x, v)]
  | (y, w) :: ns' =>
      if String.eqb y x then (x, v) :: ns' else (y, w) :: ns_bind x v ns'
  end.

(** Expressions are evaluated left to right: the callee, the positional
    arguments, then the keyword arguments. *)
Fixpoint eval (ns : namespace) (e : expr) : Prog value :=
  match e with
  | EName id =>
      match ns_lookup ns id with
      | Some v => Ret v
      | None => Raise (NameError id)
      end
  | EAttribute e' attr => v ← eval ns e'; getattr v attr
  | EStr s => Ret (VStr s)
  | ECall func args keywords =>
      f ← eval ns func;
      vs ← (fix eval_args (l : list expr) : Prog (list value) :=
              match l with
              | [] => Ret []
              | a :: l' => v ← eval ns a; vs ← eval_args l'; Ret (v :: vs)
              end) args;
      kvs ← (fix eval_keywords (l : list (string * expr))
               : Prog (list (string * value)) :=
               match l with
               | [] => Ret []
               | (k, a) :: l' =>
                   v ← eval ns a; kvs ← eval_keywords l'; Ret ((k, v) :: kvs)
               end) keywords;
      call_value f vs kvs
  | EDiv l r => a ← eval ns l; b ← eval ns r; truediv_value a b
  end.

(** A straight-line statement turns a namespace into a program that ends
    in the next namespace; compound statements have no denotation here. *)
Definition exec_stmt (s : stmt) : option (namespace -> Prog namespace) :=
  match s with
  | SImport m (Some a) =>
      Some (fun ns => _ ← import_module m; Ret (ns_bind a (VModule m) ns))
  | SImport m None =>
      Some (fun ns => _ ← import_module m;
                      Ret (ns_bind (top_package m) (VModule (top_package m)) ns))
  | SAssign x e => Some (fun ns => v ← eval ns e; Ret (ns_bind x v ns))
  | SExpr e => Some (fun ns => _ ← eval ns e; Ret ns)
  | SIf _ _ _ | SWhile _ _ | SFor _ _ _ | STry _ _ => None
  end.

Fixpoint exec_body (body : list stmt)
  : option (namespace -> Prog namespace) :=
  match body with
  | [] => Some Ret
  | s :: body' =>
      match exec_stmt s, exec_body body' with
      | Some f, Some g => Some (fun ns => ns' ← f ns; g ns')
      | _, _ => None
      end
  end.

(** ** The module body as a program *)

(** The names the module has bound when its last statement returns. *)
Definition module_globals (common_templates templates : value) : namespace :=
  [ ("s", VModule "synthtool");
    ("gcp", VModule "synthtool.gcp");
    ("logging", VModule "logging");
    ("common_templates", common_templates);
    ("templates", templates) ].

(** Each call looks its callee up first, then evaluates its arguments
    from left to right. *)
Definition synth : Prog namespace :=
  s ← import_module "synthtool";
  gcp ← import_module "synthtool.gcp";
  logging ← import_module "logging";
  CommonTemplates ← getattr gcp "CommonTemplates";
  common_templates ← call_value CommonTemplates [] [];
  basicConfig ← getattr logging "basicConfig";
  DEBUG ← getattr logging "DEBUG";
  _ ← call_value basicConfig [] [("level", DEBUG)];
  node_library ← getattr common_templates "node_library";
  templates ← call_value node_library [] [];
  copy ← getattr s "copy";
  kokoro ← truediv_value templates (VStr ".kokoro");
  _ ← call_value copy [kokoro] [];
  Ret (module_globals common_templates templates).

(** Two programs are the same tree when they ask the same operations
    and continue alike on every answer. *)
Inductive Prog_eq {R : Type} : Prog R -> Prog R -> Prop :=
| Prog_eq_Ret (r : R) : Prog_eq (Ret r) (Ret r)
| Prog_eq_Raise (e : exn) : Prog_eq (Raise e) (Raise e)
| Prog_eq_Do (c : call) (k1 k2 : value -> Prog R) :
    (forall v, Prog_eq (k1 v) (k2 v)) -> Prog_eq (Do c k1) (Do c k2).

(** ** Running a program against a library *)

Inductive outcome :=
| Returned (v : value)
| Failed (e : exn).

(** A library answers an operation with an outcome and the paths of the
    invoking repository (relative to its root) that the operation created
    or modified. *)
Record response := mkResponse { res_outcome : outcome; res_written : list Path }.

Record event := mkEvent
  { ev_call : call; ev_outcome : outcome; ev_written : list Path }.

Inductive result (R : Type) :=
| Done (r : R)
| Uncaught (e : exn).
Arguments Done {R} r.
Arguments Uncaught {R} e.

(** What a run leaves: its result, the operations it performed (imports
    and calls) with their outcomes, the state of the library after each of
    them, and the final state. *)
Record execution (R St : Type) := mkExecution
  { exe_result : result R;
    exe_trace : list event;
    exe_states : list St;
    exe_state : St }.
Arguments mkExecution {R St} _ _ _ _.
Arguments exe_result {R St} _.
Arguments exe_trace {R St} _.
Arguments exe_states {R St} _.
Arguments exe_state {R St} _.

(** Nothing in a program catches: the first failed operation or lookup
    ends it.  A lookup is a question to the library in its current state:
    it is no operation of the trace and changes nothing. *)
Fixpoint run {R St : Type} (lib : call -> St -> response * St)
    (p : Prog R) (st : St) : execution R St :=
  match p with
  | Ret r => mkExecution (Done r) [] [] st
  | Raise e => mkExecution (Uncaught e) [] [] st
  | Do (GetAttr owner attr) k =>
      match res_outcome (fst (lib (GetAttr owner attr) st)) with
      | Returned v => run lib (k v) st
      | Failed e => mkExecution (Uncaught e) [] [] st
      end
  | Do c k =>
      let (resp, st') := lib c st in
      let ev := mkEvent c (res_outcome resp) (res_written resp) in
      match res_outcome resp with
      | Returned v =>
          match run lib (k v) st' with
          | mkExecution r tr sts st'' =>
              mkExecution r (ev :: tr) (st' :: sts) st''
          end
      | Failed e => mkExecution (Uncaught e) [ev] [st'] st'
      end
  end.



(** ** Observing a run *)

Definition calls (tr : list event) : list call := map ev_call tr.

Definition written (tr : list event) : list Path := concat (map ev_written tr).

(** A call of the member [attr] of the module [m]. *)
Definition is_member_call (m attr : string) (c : call) : bool :=
  match c with
  | Invoke (VAttr owner a) _ _ => String.eqb a attr && is_module m owner
  | _ => false
  end.

(** [logging.basicConfig(...)] *)
Definition is_logging_config : call -> bool :=
  is_member_call "logging" "basicConfig".

(** [gcp.CommonTemplates(...)] *)
Definition is_provider_construction : call -> bool :=
  is_member_call "synthtool.gcp" "CommonTemplates".

(** [s.copy(...)] *)
Definition is_copy : call -> bool :=
  is_member_call "synthtool" "copy".

(** A call of an attribute named [attr], whatever it belongs to. *)
Definition is_attr_call (attr : string) (c : call) : bool :=
  match c with
  | Invoke (VAttr _ a) _ _ => String.eqb a attr
  | _ => false
  end.

(** [<provider>.node_library(...)]: the request that renders the
    templates. *)
Definition is_rendering : call -> bool := is_attr_call "node_library".

(** The attribute a call goes through: the selector of what is asked. *)
Definition callee_attr (c : call) : option string :=
  match c with
  | Invoke (VAttr _ a) _ _ => Some a
  | _ => None
  end.

Definition invoked_attrs (cs : list call) : list string := omap callee_attr cs.

Definition count_calls (P : call -> bool) (cs : list call) : nat :=
  length (List.filter P cs).

(** [precedesb P Q seen cs]: every [Q] call of [cs] comes after some [P]
    call ([seen] tells whether one came before [cs]). *)
Fixpoint precedesb (P Q : call -> bool) (seen : bool) (cs : list call) : bool :=
  match cs with
  | [] => true
  | c :: cs' => implb (Q c) seen && precedesb P Q (seen || P c) cs'
  end.

Definition precedes (P Q : call -> bool) (cs : list call) : Prop :=
  precedesb P Q false cs = true.

(** The [level] keyword of a call, when it is an integer. *)
Definition level_keyword (c : call) : option Z :=
  match c with
  | Invoke _ _ [("level", VInt n)] => Some n
  | _ => None
  end.

(** The levels the logging-configuration calls of a run were given. *)
Definition configured_levels (cs : list call) : list Z :=
  omap level_keyword (List.filter is_logging_config cs).


(** The four calls of the script. *)
Definition CommonTemplates_call : call :=
  Invoke (VAttr (VModule "synthtool.gcp") "CommonTemplates") [] [].

Definition basicConfig_call : call :=
  Invoke (VAttr (VModule "logging") "basicConfig") [] [("level", VInt 10)].

Definition node_library_call (common_templates : value) : call :=
  Invoke (VAttr common_templates "node_library") [] [].

Definition copy_call (sources : Path) : call :=
  Invoke (VAttr (VModule "synthtool") "copy") [VPath sources] [].

(** The operations of a run that goes through, given the provider
    [common_templates] and the rendered root [templates] the library
    returned. *)
Definition script_calls (common_templates : value) (templates : Path) : list call :=
  [ Import "synthtool";
    Import "synthtool.gcp";
    Import "logging";
    CommonTemplates_call;
    basicConfig_call;
    node_library_call common_templates;
    copy_call (truediv templates ".kokoro") ].

(** [returned tr c v]: in the trace [tr] the operation [c] returned [v]. *)
Definition returned (tr : list event) (c : call) (v : value) : Prop :=
  exists w, In (mkEvent c (Returned v) w) tr.

Definition is_returned (ev : event) : bool :=
  match ev_outcome ev with
  | Returned _ => true
  | Failed _ => false
  end.

(** ** How a run can end before its last statement *)

(** The last operation failed, and its exception is the result. *)
Definition failed_operation {R St : Type} (r : execution R St) : Prop :=
  exists ev e,
    exe_result r = Uncaught e /\
    last (exe_trace r) = Some ev /\
    ev_outcome ev = Failed e.

(** Every operation returned, and the run ended at the lookup of
    [owner.attr]: the library, in the state the run left it in, answers
    that lookup with the exception that is the result. *)
Definition failed_lookup {R St : Type} (lib : call -> St -> response * St)
    (owner : value) (attr : string) (r : execution R St) : Prop :=
  exists e,
    exe_result r = Uncaught e /\
    res_outcome (fst (lib (GetAttr owner attr) (exe_state r))) = Failed e /\
    forallb is_returned (exe_trace r) = true.

(** The library ended the run: by a failed operation or a failed lookup. *)
Definition ended_by_library {R St : Type} (lib : call -> St -> response * St)
    (r : execution R St) : Prop :=
  failed_operation r \/ exists owner attr, failed_lookup lib owner attr r.

(** [CommonTemplates()] returned a built-in value, on which the lookup of
    [node_library] raised AttributeError. *)
Definition provider_without_attributes {R St : Type} (r : execution R St)
  : Prop :=
  exists v attr,
    returned (exe_trace r) CommonTemplates_call v /\
    library_owned v = false /\
    exe_result r = Uncaught (AttributeError attr).


(** ** Two libraries to run the script against *)

Definition stub_templates : Path := mkPath true ["tmp"; "templates"].

(** A library that answers every operation: the provider is an object,
    its template root is [stub_templates], and [copy] writes two files
    beneath the directory named after the copied one. *)
Definition stub_respond (c : call) (st : unit) : response * unit :=
  if is_provider_construction c then (mkResponse (Returned (VObject 0)) [], st)
  else if is_rendering c then (mkResponse (Returned (VPath stub_templates)) [], st)
  else if is_copy c then
    match c with
    | Invoke _ [VPath src] _ =>
        (mkResponse (Returned VNone)
           [mkPath false [name src; "build.sh"];
            mkPath false [name src; "continuous.cfg"]], st)
    | _ => (mkResponse (Failed (TypeError "copy() expects a path")) [], st)
    end
  else (mkResponse (Returned VNone) [], st).

(** The same library, except that the operations selected by [fails]
    raise. *)
Definition OSError : exn := PyExn "OSError" "operation failed".

Definition failing_respond (fails : call -> bool) (c : call) (st : unit)
  : response * unit :=
  if fails c then (mkResponse (Failed OSError) [], st) else stub_respond c st.

(** ** Further observations of a run *)

Definition is_import_call (c : call) : bool :=
  match c with
  | Import _ => true
  | Invoke _ _ _ | GetAttr _ _ => false
  end.

Definition is_invoke (c : call) : bool :=
  match c with
  | Invoke _ _ _ => true
  | Import _ | GetAttr _ _ => false
  end.

(** The three imports the module starts with, in source order. *)
Definition script_imports : list call :=
  [Import "synthtool"; Import "synthtool.gcp"; Import "logging"].

(** Values of the built-in types that have no division: [None], integers
    (by a string), strings and modules. *)
Definition has_no_truediv (v : value) : bool :=
  match v with
  | VNone | VInt _ | VStr _ | VModule _ => true
  | VPath _ | VObject _ | VAttr _ _ => false
  end.

(** The stub library, except that [node_library] returns [rendered]. *)
Definition rendering_respond (rendered : value) (c : call) (st : unit)
  : response * unit :=
  if is_rendering c then (mkResponse (Returned rendered) [], st)
  else stub_respond c st.

(** A library with the root logger as its state: its logging module
    configures the root logger as Python's does, and, when
    [installs_handler] is set, importing synthtool puts a handler on the
    root logger.  Everything else is answered as the stub library does. *)
Definition logging_respond (installs_handler : bool) (c : call)
    (root : Logging.logger) : response * Logging.logger :=
  let answer := fst (stub_respond c tt) in
  match c with
  | Import m =>
      if installs_handler && String.eqb m "synthtool" then
        (answer,
         Logging.mkLogger (Logging.log_level root)
           (S (Logging.log_handlers root)))
      else (answer, root)
  | Invoke _ _ _ =>
      if is_logging_config c then
        match level_keyword c with
        | Some n => (answer, Logging.basicConfig n root)
        | None => (answer, root)
        end
      else (answer, root)
  | GetAttr _ _ => (answer, root)
  end.

(** The stub library, except that rendering also writes the file
    [synth.metadata] at the root of the invoking repository. *)
Definition metadata_respond (c : call) (st : unit) : response * unit :=
  if is_rendering c then
    (mkResponse (Returned (VPath stub_templates))
       [mkPath false ["synth.metadata"]], st)
  else stub_respond c st.

(** ** Case analysis on the library's answers *)

Arguments truediv : simpl never.
Arguments name : simpl never.

(** One step of a run: the library's answer to the next operation, then,
    where the script looks at the value it got, the shape of that value. *)
Ltac library_answer lib :=
  match goal with
  | H : lib ?c ?st = _ |- context [lib ?c ?st] =>
      rewrite H
  | |- context [lib ?c ?st] =>
      is_var st;
      let v := fresh "v" in
      let e := fresh "e" in
      let w := fresh "w" in
      let st' := fresh "st" in
      let E := fresh "Hlib" in
      destruct (lib c st) as [[[v | e] w] st'] eqn:E
  | |- context [getattr ?v _] =>
      let E := fresh "Howned" in
      unfold getattr; destruct (library_owned v) eqn:E
  | |- context [truediv_value ?t _] =>
      destruct t
  end.

Ltac run_synth lib :=
  unfold synth; cbn; repeat (library_answer lib; cbn).

(** What the library answered to a lookup, from the case analysis. *)
Ltac lookup_answer :=
  match goal with
  | H : ?lib ?c ?s = _ |- res_outcome (fst (?lib ?c' ?s)) = _ =>
      unify c c'; rewrite H; reflexivity
  end.

(** Closing a leaf of the case analysis: the trace, the result and the
    library's answers are known, and the goal is made of conjunctions,
    alternatives and witnesses to be read off them. *)
Ltac settle :=
  cbn;
  lazymatch goal with
  | |- True => exact I
  | |- _ /\ _ => split; settle
  | |- _ \/ _ => first [left; settle | right; settle]
  | |- exists _, _ => eexists; settle
  | |- _ `prefix_of` _ => eexists; reflexivity
  | |- forall _, _ <> _ => let H := fresh in intros ? H; discriminate H
  | |- _ <> _ => let H := fresh in intros H; discriminate H
  | |- _ => first [reflexivity | eassumption | lookup_answer | lia]
  end.

(** For a library under contract: [only_copy_writes] empties what the
    operations other than the copy wrote; the copy's answer goes back to
    the goal. *)
Ltac use_contract lib only_copy_writes :=
  repeat match goal with
  | H : lib ?c ?s = (mkResponse _ ?w, _) |- _ =>
      first
        [ let E := fresh "E" in
          pose proof (only_copy_writes c s eq_refl) as E;
          rewrite H in E; simpl in E; subst w; clear H
        | revert H ]
  end.

(** * Properties *)

Lemma Prog_eq_refl {R : Type} (p : Prog R) : Prog_eq p p.
Proof. induction p; constructor; auto. Qed.

Lemma run_Prog_eq {R St : Type} (lib : call -> St -> response * St)
    (p q : Prog R) :
  Prog_eq p q -> forall st, run lib p st = run lib q st.
Proof.
  induction 1 as [r | e | c k1 k2 _ IH]; intros st; try reflexivity.
  destruct c as [m | f args kwargs | owner attr]; simpl;
    destruct (lib _ st) as [resp st']; simpl;
    destruct (res_outcome resp) as [v | e]; try rewrite IH; reflexivity.
Qed.

(** The statements of the file denote the program [synth]. *)
Lemma synth_py_denotes_synth :
  exists f, exec_body synth_py = Some f /\ Prog_eq (f []) synth.
Proof.
  eexists. split; [reflexivity |].
  vm_compute.
  repeat first
    [ apply Prog_eq_Do; intros ?
    | apply Prog_eq_Ret
    | apply Prog_eq_Raise
    | match goal with
      | |- context [match ?v with VNone => _ | _ => _ end] =>
          is_var v; destruct v
      end ].
Qed.

Example stub_run_calls :
  calls (exe_trace (run stub_respond synth tt))
  = script_calls (VObject 0) stub_templates.
Proof. vm_compute. reflexivity. Qed.

Example stub_run_written :
  written (exe_trace (run stub_respond synth tt))
  = [mkPath false [".kokoro"; "build.sh"]; mkPath false [".kokoro"; "continuous.cfg"]].
Proof. vm_compute. reflexivity. Qed.

Example stub_run_result :
  exe_result (run stub_respond synth tt)
  = Done (module_globals (VObject 0) (VPath stub_templates)).
Proof. vm_compute. reflexivity. Qed.

(** ** pathlib *)

Lemma segments_kokoro : segments ".kokoro" = [".kokoro"].
Proof. reflexivity. Qed.

Lemma truediv_kokoro (p : Path) :
  truediv p ".kokoro" = mkPath (absolute p) (parts p ++ [".kokoro"]).
Proof. reflexivity. Qed.

(** Whatever the template root, the joined path ends in [.kokoro]. *)
Lemma name_truediv_kokoro (p : Path) : name (truediv p ".kokoro") = ".kokoro".
Proof.
  rewrite truediv_kokoro. unfold name. simpl parts. apply last_last.
Qed.

Lemma under_name (d f : string) :
  String.eqb f ".." = false -> under d (mkPath false [d; f]) = true.
Proof. intros Hf. unfold under. simpl. rewrite String.eqb_refl, Hf. reflexivity. Qed.

(** ** Runs of any program *)

Section AnyProgram.

Context {R St : Type} (lib : call -> St -> response * St).


(** Every operation before the last one returned. *)
Lemma run_earlier_returned (p : Prog R) (st : St) :
  forallb is_returned (removelast (exe_trace (run lib p st))) = true.
Proof.
  revert st. induction p as [r | e' | c k IH]; intros st; simpl; try reflexivity.
  destruct c as [m | f args kwargs | owner attr];
    destruct (lib _ st) as [resp st']; simpl;
    destruct (res_outcome resp) as [v | e'] eqn:Hout;
    try reflexivity; try apply IH.
  all: specialize (IH v st');
    destruct (run lib (k v) st') as [r tr sts st'']; simpl in *;
    (destruct tr as [| ev' tr']; [reflexivity |]);
    simpl forallb at 1; exact IH.
Qed.

End AnyProgram.

(** ** The runs of synth.py *)

Section Runs.

Context {St : Type} (lib : call -> St -> response * St).

(** The operations of a run are an initial part of [script_calls]: what
    the script asks next never depends on more than the values handed
    on. *)
Lemma run_calls_prefix (st : St) :
  exists common_templates templates,
    calls (exe_trace (run lib synth st))
    `prefix_of` script_calls common_templates templates.
Proof.
  run_synth lib;
    try (exists VNone, (mkPath false []); eexists; reflexivity);
    try (eexists _, (mkPath false []); eexists; reflexivity);
    eexists _, _; exists []; reflexivity.
Qed.


(** C1, as amended: the provider is constructed before logging is
    configured, and logging is configured before the templates are
    requested from the provider. *)
Theorem construction_then_logging_then_rendering (st : St) :
  precedes is_provider_construction is_logging_config
    (calls (exe_trace (run lib synth st))) /\
  precedes is_logging_config is_rendering
    (calls (exe_trace (run lib synth st))).
Proof. run_synth lib; split; reflexivity. Qed.

(** C4: in every execution the logging configuration comes before the
    copy: each call of [s.copy] in the trace has a call of
    [logging.basicConfig] before it. *)
Theorem logging_precedes_copy (st : St) :
  precedes is_logging_config is_copy (calls (exe_trace (run lib synth st))).
Proof. run_synth lib; reflexivity. Qed.

(** C2, as amended: every run calls [gcp.CommonTemplates()] exactly once,
    without arguments, unless a failed import or the failed lookup of
    [CommonTemplates] ended it before.  The family requested is
    [node_library]: it is called once, on the provider that was returned,
    unless the library or a provider without attributes ended the run
    before; the attributes called in a run are an initial part of
    CommonTemplates, basicConfig, node_library, copy. *)
Theorem provider_constructed_once_for_node_library (st : St) :
  let r := run lib synth st in
  (List.filter is_provider_construction (calls (exe_trace r))
     = [CommonTemplates_call] \/
   count_calls is_provider_construction (calls (exe_trace r)) = 0 /\
   (failed_operation r \/
    failed_lookup lib (VModule "synthtool.gcp") "CommonTemplates" r)) /\
  ((exists common_templates,
      returned (exe_trace r) CommonTemplates_call common_templates /\
      List.filter is_rendering (calls (exe_trace r))
        = [node_library_call common_templates]) \/
   count_calls is_rendering (calls (exe_trace r)) = 0 /\
   (ended_by_library lib r \/ provider_without_attributes r)) /\
  invoked_attrs (calls (exe_trace r))
    `prefix_of` ["CommonTemplates"; "basicConfig"; "node_library"; "copy"].
Proof.
  unfold ended_by_library, failed_operation, failed_lookup,
    provider_without_attributes, returned, count_calls.
  run_synth lib; settle.
Qed.



(** C7, as amended: the module body has seven statements, three imports
    and then four statements that each make one call; none has a branch, a
    loop or a handler, and together they denote [synth].  A run performs
    the operations of [script_calls] in that order, none twice, stops at
    the first that fails, and makes all seven when it goes through. *)
Theorem four_statements_in_a_straight_line (st : St) :
  let r := run lib synth st in
  length synth_py = 7 /\
  map is_import synth_py = [true; true; true; false; false; false; false] /\
  forallb straight_line synth_py = true /\
  (exists f, exec_body synth_py = Some f /\ Prog_eq (f []) synth) /\
  (exists common_templates templates,
     calls (exe_trace r) `prefix_of` script_calls common_templates templates) /\
  NoDup (calls (exe_trace r)) /\
  forallb is_returned (removelast (exe_trace r)) = true /\
  match exe_result r with
  | Done _ => length (exe_trace r) = 7
  | Uncaught _ => length (exe_trace r) <= 7
  end.
Proof.
  intros r. subst r.
  split; [reflexivity |]. split; [reflexivity |]. split; [reflexivity |].
  split; [apply synth_py_denotes_synth |].
  split; [apply run_calls_prefix |].
  split; [| split; [apply run_earlier_returned |]].
  - apply NoDup_ListNoDup.
    run_synth lib;
      repeat (constructor; [simpl; intuition discriminate |]); constructor.
  - run_synth lib; simpl; lia.
Qed.


(** C10: when an operation other than the copy fails, such as the
    construction of the provider or the rendering, the run ends with that
    exception and the copy is never called. *)
Theorem no_copy_after_earlier_failure (st : St) (ev : event) (e : exn) :
  In ev (exe_trace (run lib synth st)) ->
  ev_outcome ev = Failed e ->
  is_copy (ev_call ev) = false ->
  count_calls is_copy (calls (exe_trace (run lib synth st))) = 0 /\
  exe_result (run lib synth st) = Uncaught e.
Proof.
  run_synth lib; intros Hin Hfail Hcopy;
    repeat (destruct Hin as [<- | Hin]; [simpl in Hfail, Hcopy |]);
    try destruct Hin; try discriminate;
    (split; [reflexivity | congruence]).
Qed.

End Runs.

(** ** What a run writes *)

Section LibraryContract.

Context {St : Type} (lib : call -> St -> response * St).

(** The library's part of the bargain: only [s.copy] writes into the
    invoking repository, and what it writes lies beneath the directory
    that bears the name of the copied one. *)
Hypothesis only_copy_writes :
  forall (c : call) (st : St),
    is_copy c = false -> res_written (fst (lib c st)) = [].

Hypothesis copy_writes_beneath :
  forall (sources : Path) (st : St) (q : Path),
    In q (res_written (fst (lib (copy_call sources) st))) ->
    under (name sources) q = true.

(** C9: with a library that keeps to this, every path of the invoking
    repository that a run creates or modifies lies under [.kokoro]. *)
Theorem writes_only_under_kokoro (st : St) (q : Path) :
  In q (written (exe_trace (run lib synth st))) ->
  under ".kokoro" q = true.
Proof.
  unfold written.
  run_synth lib; use_contract lib only_copy_writes; simpl;
    try (intros Hin; exact (False_ind _ Hin)).
  all: intros Hcopy Hin; rewrite app_nil_r in Hin;
    match type of Hcopy with
    | lib (Invoke _ [VPath ?src] _) ?s = _ =>
        pose proof (copy_writes_beneath src s q) as Hc
    end;
    unfold copy_call in Hc; rewrite Hcopy in Hc; simpl in Hc;
    rewrite name_truediv_kokoro in Hc; exact (Hc Hin).
Qed.

End LibraryContract.

(** ** What the logging configuration does to the root logger *)

Section RootLogger.

Context {St : Type} (lib : call -> St -> response * St).

(** The root logger, as the state of the libraries has it. *)
Context (root : St -> Logging.logger).

(** The logging module is Python's: [basicConfig(level=n)] acts on the
    root logger as [Logging.basicConfig]. *)
Hypothesis basicConfig_acts_on_root :
  forall (st : St) (n : Z),
    root (snd (lib (Invoke (VAttr (VModule "logging") "basicConfig") []
                      [("level", VInt n)]) st))
    = Logging.basicConfig n (root st).

(** C6, as amended: every run calls [logging.basicConfig(level=DEBUG)]
    exactly once, as its fifth operation, unless a failed operation or a
    failed lookup of [CommonTemplates] or [basicConfig] ended it before.
    The call takes the root logger from the state the provider
    construction left to [Logging.basicConfig] of it: a root logger
    without handler gets the level DEBUG, the lowest a message can have,
    so that messages of every level are enabled; a root logger that has a
    handler already is left as it is. *)
Theorem logging_configured_at_debug (st : St) :
  let r := run lib synth st in
  (List.filter is_logging_config (calls (exe_trace r)) = [basicConfig_call] /\
   configured_levels (calls (exe_trace r))
     = [Logging.level_no Logging.DEBUG] /\
   (exists before after,
      exe_states r !! 3 = Some before /\
      exe_states r !! 4 = Some after /\
      root after
        = Logging.basicConfig (Logging.level_no Logging.DEBUG) (root before))
   \/
   count_calls is_logging_config (calls (exe_trace r)) = 0 /\
   (failed_operation r \/
    failed_lookup lib (VModule "synthtool.gcp") "CommonTemplates" r \/
    failed_lookup lib (VModule "logging") "basicConfig" r)) /\
  (forall root0 : Logging.logger,
     Logging.log_handlers root0 = 0 ->
     Logging.log_level
       (Logging.basicConfig (Logging.level_no Logging.DEBUG) root0)
       = Logging.level_no Logging.DEBUG /\
     forall l : Logging.level,
       Logging.isEnabledFor
         (Logging.log_level
            (Logging.basicConfig (Logging.level_no Logging.DEBUG) root0))
         (Logging.level_no l) = true /\
       (Logging.level_no Logging.DEBUG <= Logging.level_no l)%Z) /\
  (forall root0 : Logging.logger,
     Logging.log_handlers root0 <> 0 ->
     Logging.basicConfig (Logging.level_no Logging.DEBUG) root0 = root0).
Proof.
  intros r. subst r. split; [| split].
  - unfold failed_operation, failed_lookup, count_calls, configured_levels.
    run_synth lib;
      repeat match goal with
      | Hl : lib (Invoke (VAttr (VModule "logging") "basicConfig") _ _) ?s
             = (_, ?s') |- _ =>
          lazymatch goal with
          | _ : root s' = _ |- _ => fail
          | _ =>
              let X := fresh "Hroot" in
              pose proof (basicConfig_acts_on_root s 10) as X;
              rewrite Hl in X; simpl in X
          end
      end;
      settle.
  - intros [lvl handlers] Hnone. simpl in Hnone. subst handlers.
    split; [reflexivity |].
    intros []; split; simpl; solve [reflexivity | lia].
  - intros [lvl [| handlers]] Hsome; [contradiction | reflexivity].
Qed.

End RootLogger.

(** ** The script against the two libraries *)

Lemma stub_only_copy_writes (c : call) (st : unit) :
  is_copy c = false -> res_written (fst (stub_respond c st)) = [].
Proof.
  intros H. unfold stub_respond. rewrite H.
  destruct (is_provider_construction c), (is_rendering c); reflexivity.
Qed.

Lemma stub_copy_writes_beneath (sources : Path) (st : unit) (q : Path) :
  In q (res_written (fst (stub_respond (copy_call sources) st))) ->
  under (name sources) q = true.
Proof. cbn. intros [<- | [<- | []]]; apply under_name; reflexivity. Qed.

(** Each of the three calls the script makes of synthtool can be the one
    that fails. *)
Example construction_failure_run :
  let r := run (failing_respond is_provider_construction) synth tt in
  exe_result r = Uncaught OSError /\
  calls (exe_trace r)
    = [Import "synthtool"; Import "synthtool.gcp"; Import "logging";
       CommonTemplates_call].
Proof. vm_compute. split; reflexivity. Qed.

Example rendering_failure_run :
  let r := run (failing_respond is_rendering) synth tt in
  exe_result r = Uncaught OSError /\
  calls (exe_trace r)
    = [Import "synthtool"; Import "synthtool.gcp"; Import "logging";
       CommonTemplates_call; basicConfig_call; node_library_call (VObject 0)].
Proof. vm_compute. split; reflexivity. Qed.

Example copy_failure_run :
  let r := run (failing_respond is_copy) synth tt in
  exe_result r = Uncaught OSError /\
  calls (exe_trace r) = script_calls (VObject 0) stub_templates /\
  written (exe_trace r) = [].
Proof. vm_compute. repeat split; reflexivity. Qed.

(** C1, as stated, fails: against the stub library the provider is
    constructed before any logging configuration is called. *)
Lemma logging_not_before_construction :
  ~ precedes is_logging_config is_provider_construction
      (calls (exe_trace (run stub_respond synth tt))).
Proof. intros H. vm_compute in H. discriminate H. Qed.

(** C2, as stated, fails: in a run whose first import fails the provider
    is not constructed at all. *)
Lemma provider_not_constructed_after_failed_import :
  ~ count_calls is_provider_construction
      (calls (exe_trace (run (failing_respond is_import_call) synth tt))) = 1.
Proof. vm_compute. discriminate. Qed.


(** C6, as stated, fails: when importing synthtool has put a handler on
    the root logger, the run goes through and passes DEBUG to
    [basicConfig], but the root logger keeps its level and messages of
    level DEBUG stay disabled. *)
Lemma debug_not_enabled_behind_a_handler :
  ~ (forall ns,
       exe_result (run (logging_respond true) synth Logging.initial_root)
         = Done ns ->
       Logging.isEnabledFor
         (Logging.log_level
            (exe_state (run (logging_respond true) synth Logging.initial_root)))
         (Logging.level_no Logging.DEBUG) = true).
Proof.
  intros H.
  specialize (H (module_globals (VObject 0) (VPath stub_templates)) eq_refl).
  vm_compute in H. discriminate H.
Qed.

(** C9, as stated, fails: against a library whose rendering writes
    [synth.metadata], a run writes outside [.kokoro]. *)
Lemma metadata_written_outside_kokoro :
  ~ (forall q,
       In q (written (exe_trace (run metadata_respond synth tt))) ->
       under ".kokoro" q = true).
Proof.
  intros H. specialize (H (mkPath false ["synth.metadata"])).
  assert (Hin : In (mkPath false ["synth.metadata"])
                  (written (exe_trace (run metadata_respond synth tt)))).
  { vm_compute. left. reflexivity. }
  apply H in Hin. vm_compute in Hin. discriminate Hin.
Qed.

(** C7, as stated, fails: the module body has seven statements, four of
    them after the imports, and a run against the stub library performs
    seven operations. *)
Lemma synth_py_not_three_statements :
  length synth_py <> 3 /\
  length (List.filter (fun s => negb (is_import s)) synth_py) <> 3 /\
  length (exe_trace (run stub_respond synth tt)) <> 3.
Proof. vm_compute. repeat split; discriminate. Qed.



Lemma logging_respond_acts_on_root (b : bool) (root : Logging.logger) (n : Z) :
  snd (logging_respond b
         (Invoke (VAttr (VModule "logging") "basicConfig") []
            [("level", VInt n)]) root)
  = Logging.basicConfig n root.
Proof. reflexivity. Qed.

Lemma logging_configured_at_debug_witness :
  exists before after,
    exe_states (run (logging_respond false) synth Logging.initial_root) !! 3
      = Some before /\
    exe_states (run (logging_respond false) synth Logging.initial_root) !! 4
      = Some after /\
    after = Logging.basicConfig (Logging.level_no Logging.DEBUG) before /\
    Logging.log_level after = Logging.level_no Logging.DEBUG.
Proof.
  destruct (logging_configured_at_debug (logging_respond false) (fun s => s)
              (logging_respond_acts_on_root false) Logging.initial_root)
    as [[(_ & _ & before & after & Hb & Ha & Hroot) | [Hnone _]] _].
  - exists before, after. repeat split; try assumption.
    rewrite Hroot. vm_compute in Hb. injection Hb as <-. reflexivity.
  - vm_compute in Hnone. discriminate Hnone.
Defined.


Lemma writes_only_under_kokoro_witness :
  In (mkPath false [".kokoro"; "build.sh"])
    (written (exe_trace (run stub_respond synth tt))) /\
  under ".kokoro" (mkPath false [".kokoro"; "build.sh"]) = true.
Proof.
  assert (Hin : In (mkPath false [".kokoro"; "build.sh"])
                  (written (exe_trace (run stub_respond synth tt)))).
  { vm_compute. left. reflexivity. }
  split; [exact Hin |].
  exact (writes_only_under_kokoro stub_respond stub_only_copy_writes
           stub_copy_writes_beneath tt _ Hin).
Defined.

Lemma no_copy_after_earlier_failure_witness :
  count_calls is_copy
    (calls (exe_trace
              (run (failing_respond is_provider_construction) synth tt))) = 0 /\
  exe_result (run (failing_respond is_provider_construction) synth tt)
    = Uncaught OSError.
Proof.
  apply (no_copy_after_earlier_failure
           (failing_respond is_provider_construction) tt
           (mkEvent CommonTemplates_call (Failed OSError) []) OSError).
  - vm_compute. do 3 right. left. reflexivity.
  - reflexivity.
  - reflexivity.
Defined.

(** * Further properties of the module body *)

Section MoreRuns.

Context {St : Type} (lib : call -> St -> response * St).

(** X1: the three imports come first and in source order: a run that
    calls anything has performed all three before, a run that calls
    nothing stopped among them, and nothing is imported later. *)
Theorem imports_come_first (st : St) :
  let cs := calls (exe_trace (run lib synth st)) in
  (if existsb is_invoke cs then firstn 3 cs = script_imports
   else cs `prefix_of` script_imports) /\
  existsb is_import_call (skipn 3 cs) = false.
Proof.
  run_synth lib; (split; [| reflexivity]);
    solve [reflexivity | eexists; reflexivity].
Qed.

(** X2: when [node_library()] returns a value of a built-in type without
    division instead of a path, the rendering was the last operation and
    the copy is never called.  The callee [s.copy] is looked up before the
    argument is evaluated: if the library does not have it, the run ends
    with the exception of that lookup; otherwise the join raises
    TypeError. *)
Theorem non_path_templates_end_the_run
    (st : St) (common_templates v : value) :
  returned (exe_trace (run lib synth st))
    (node_library_call common_templates) v ->
  has_no_truediv v = true ->
  count_calls is_copy (calls (exe_trace (run lib synth st))) = 0 /\
  last (calls (exe_trace (run lib synth st)))
    = Some (node_library_call common_templates) /\
  match
    res_outcome
      (fst (lib (GetAttr (VModule "synthtool") "copy")
              (exe_state (run lib synth st))))
  with
  | Failed e => exe_result (run lib synth st) = Uncaught e
  | Returned _ =>
      exists msg, exe_result (run lib synth st) = Uncaught (TypeError msg)
  end.
Proof.
  unfold returned, node_library_call, count_calls.
  run_synth lib; intros [w' Hin] Hv;
    repeat (destruct Hin as [Heq | Hin];
            [try discriminate Heq; injection Heq as <- <- <-;
             try discriminate Hv |]);
    try destruct Hin;
    settle.
Qed.


(** X5: when an import fails, the run ends with that exception before
    any function of either library is called: no provider, no logging
    configuration, no copy. *)
Theorem failed_import_stops_before_any_call
    (st : St) (ev : event) (e : exn) :
  In ev (exe_trace (run lib synth st)) ->
  is_import_call (ev_call ev) = true ->
  ev_outcome ev = Failed e ->
  existsb is_invoke (calls (exe_trace (run lib synth st))) = false /\
  exe_result (run lib synth st) = Uncaught e.
Proof.
  run_synth lib; intros Hin Himport Hfail;
    repeat (destruct Hin as [<- | Hin]; [simpl in Himport, Hfail |]);
    try destruct Hin; try discriminate;
    (split; [reflexivity | congruence]).
Qed.

(** With a library of which only the copy writes into the invoking
    repository. *)
Hypothesis only_copy_writes :
  forall (c : call) (st : St),
    is_copy c = false -> res_written (fst (lib c st)) = [].

(** X6: with such a library, a run in which an operation other than the
    copy fails leaves the invoking repository untouched. *)
Theorem no_writes_when_earlier_step_fails
    (st : St) (ev : event) (e : exn) :
  In ev (exe_trace (run lib synth st)) ->
  ev_outcome ev = Failed e ->
  is_copy (ev_call ev) = false ->
  written (exe_trace (run lib synth st)) = [].
Proof.
  unfold written.
  run_synth lib; use_contract lib only_copy_writes; simpl;
    repeat match goal with |- _ -> _ => intro end;
    repeat match goal with
           | H : _ \/ _ |- _ => destruct H as [<- | H]
           | H : False |- _ => destruct H
           end;
    simpl in *; try discriminate; reflexivity.
Qed.

End MoreRuns.

Lemma failing_only_copy_writes (fails : call -> bool) (c : call) (st : unit) :
  is_copy c = false -> res_written (fst (failing_respond fails c st)) = [].
Proof.
  intros H. unfold failing_respond.
  destruct (fails c); [reflexivity | apply stub_only_copy_writes, H].
Qed.

Lemma non_path_templates_end_the_run_witness :
  count_calls is_copy
    (calls (exe_trace (run (rendering_respond VNone) synth tt))) = 0 /\
  last (calls (exe_trace (run (rendering_respond VNone) synth tt)))
    = Some (node_library_call (VObject 0)) /\
  match
    res_outcome
      (fst (rendering_respond VNone (GetAttr (VModule "synthtool") "copy")
              (exe_state (run (rendering_respond VNone) synth tt))))
  with
  | Failed e =>
      exe_result (run (rendering_respond VNone) synth tt) = Uncaught e
  | Returned _ =>
      exists msg,
        exe_result (run (rendering_respond VNone) synth tt)
          = Uncaught (TypeError msg)
  end.
Proof.
  apply (non_path_templates_end_the_run (rendering_respond VNone) tt
           (VObject 0) VNone).
  - exists []. vm_compute. do 5 right. left. reflexivity.
  - reflexivity.
Defined.


Lemma failed_import_stops_before_any_call_witness :
  existsb is_invoke
    (calls (exe_trace (run (failing_respond is_import_call) synth tt)))
    = false /\
  exe_result (run (failing_respond is_import_call) synth tt)
    = Uncaught OSError.
Proof.
  apply (failed_import_stops_before_any_call
           (failing_respond is_import_call) tt
           (mkEvent (Import "synthtool") (Failed OSError) []) OSError).
  - vm_compute. left. reflexivity.
  - reflexivity.
  - reflexivity.
Defined.

Lemma no_writes_when_earlier_step_fails_witness :
  written (exe_trace (run (failing_respond is_rendering) synth tt)) = [].
Proof.
  apply (no_writes_when_earlier_step_fails (failing_respond is_rendering)
           (failing_only_copy_writes is_rendering) tt
           (mkEvent (node_library_call (VObject 0)) (Failed OSError) [])
           OSError).
  - vm_compute. do 5 right. left. reflexivity.
  - reflexivity.
  - reflexivity.
Defined.
